(** * The TYPO3 documentation server: tool catalogue and dispatch

    A shallow embedding of [mcp/typo3-docs-server/server.py].  The module
    declares five tools ([list_tools]), routes a call to one of five
    handlers by comparing the tool name ([call_tool]), and turns every
    [Exception] raised underneath into a one-block text answer.

    Python values that can reach the server are the values a JSON document
    decodes to.  Effects are the ones the module has: exceptions, and lines
    written to the error log. *)

From Stdlib Require Import ZArith String Ascii List.
From stdpp Require Import gmap strings list fin_maps pretty.

Set Warnings "-register-all".

(** ** Python values *)

(** The decoded JSON values.  A float is only ever formatted or compared
    with string keys by this module, so it is carried by its [repr] (the
    text Python prints for it); byte strings stand for [str], in UTF-8.
    A nested object keeps its insertion order because [str] shows it. *)
Inductive value : Type :=
| VNone
| VBool (b : bool)
| VInt (n : Z)
| VFloat (repr : string)
| VStr (s : string)
| VList (l : list value)
| VDict (d : list (string * value)).

(** [type(v).__name__] *)
Definition type_name (v : value) : string :=
  match v with
  | VNone => "NoneType"
  | VBool _ => "bool"
  | VInt _ => "int"
  | VFloat _ => "float"
  | VStr _ => "str"
  | VList _ => "list"
  | VDict _ => "dict"
  end.

Definition squote : ascii := "'"%char.
Definition dquote : ascii := "034"%char.
Definition backslash : ascii := "\"%char.

Definition chr (c : ascii) : string := String c EmptyString.

Fixpoint has_char (c : ascii) (s : string) : bool :=
  match s with
  | EmptyString => false
  | String c' s' => if Ascii.eqb c c' then true else has_char c s'
  end.

Definition hex_digit (n : N) : string :=
  chr (nth (N.to_nat n) (list_ascii_of_string "0123456789abcdef") "0"%char).

(** One character of [repr(str)]: the chosen quote and the backslash are
    escaped, tab, line feed and carriage return get their letter, the other
    ASCII control characters a two-digit hexadecimal escape.  Bytes from
    128 up are kept: they encode code points Python prints as they are
    (its escapes for non-printable code points beyond ASCII are not
    modelled). *)
Definition repr_char (quote c : ascii) : string :=
  let n := N_of_ascii c in
  if Ascii.eqb c quote || Ascii.eqb c backslash then String backslash (chr c)
  else if (n =? 9)%N then "\t"
  else if (n =? 10)%N then "\n"
  else if (n =? 13)%N then "\r"
  else if (n <? 32)%N || (n =? 127)%N then "\x" +:+ hex_digit (n / 16) +:+ hex_digit (n mod 16)
  else chr c.

Fixpoint repr_chars (quote : ascii) (s : string) : string :=
  match s with
  | EmptyString => EmptyString
  | String c s' => repr_char quote c +:+ repr_chars quote s'
  end.

(** [repr(s)] for a string: single quotes, unless the string has a single
    quote and no double quote. *)
Definition repr_str (s : string) : string :=
  let quote := if has_char squote s && negb (has_char dquote s) then dquote else squote in
  String quote (repr_chars quote s) +:+ chr quote.

(** [", ".join(l)] *)
Fixpoint join_comma (l : list string) : string :=
  match l with
  | [] => ""
  | [x] => x
  | x :: l' => x +:+ ", " +:+ join_comma l'
  end.

(** [repr(v)].  Integers print in decimal (the digit limit newer
    interpreters put on that conversion is not modelled). *)
Fixpoint py_repr (v : value) : string :=
  match v with
  | VNone => "None"
  | VBool b => if b then "True" else "False"
  | VInt n => pretty n
  | VFloat r => r
  | VStr s => repr_str s
  | VList l => "[" +:+ join_comma (map py_repr l) +:+ "]"
  | VDict d =>
      "{" +:+ join_comma (map (fun kv => match kv with
                                         | (k, x) => repr_str k +:+ ": " +:+ py_repr x
                                         end) d) +:+ "}"
  end.

(** [str(v)], which is what a replacement field [{v}] of an f-string
    inserts. *)
Definition py_str (v : value) : string :=
  match v with
  | VStr s => s
  | _ => py_repr v
  end.

(** ** Exceptions, the log, and the monad of the module *)

(** A raised object: its class name, [str(e)], and whether the class
    derives from [Exception] (as opposed to [BaseException] only, like
    [KeyboardInterrupt] or [asyncio.CancelledError]). *)
Record exn : Type := Exn {
  exn_class : string;
  exn_str : string;
  is_Exception : bool
}.

Definition TypeError (msg : string) : exn :=
  {| exn_class := "TypeError"; exn_str := msg; is_Exception := true |}.

Inductive outcome (A : Type) : Type :=
| Return (a : A)
| Raise (e : exn).
Arguments Return {A} a.
Arguments Raise {A} e.

(** The lines [logger.error] has written so far, oldest first. *)
Definition log : Type := list string.

Definition M (A : Type) : Type := log -> outcome A * log.

Definition ret {A} (a : A) : M A := fun s => (Return a, s).

Definition raise {A} (e : exn) : M A := fun s => (Raise e, s).

Definition bind {A B} (k : A -> M B) (m : M A) : M B :=
  fun s => match m s with
           | (Return a, s') => k a s'
           | (Raise e, s') => (Raise e, s')
           end.

(** stdpp's monad notations: [x ← m; k] and [m;; k]. *)
#[global] Instance M_ret : MRet M := @ret.
#[global] Instance M_bind : MBind M := @bind.

(** [try: body  except Exception as e: handler(e)] *)
Definition try_except {A} (body : M A) (handler : exn -> M A) : M A :=
  fun s => match body s with
           | (Return a, s') => (Return a, s')
           | (Raise e, s') => if is_Exception e then handler e s' else (Raise e, s')
           end.

Definition logger_error (msg : string) : M unit :=
  fun s => (Return tt, s ++ [msg]).

(** ** Dictionaries with string keys *)

(** [d.get(key, default)] where [key] is a string literal *)
Definition dict_get (d : gmap string value) (key : string) (dflt : value) : value :=
  default dflt (d !! key).

(** Hashing a key: lists and dicts are unhashable. *)
Definition py_hash_check (key : value) : M unit :=
  match key with
  | VList _ => raise (TypeError "unhashable type: 'list'")
  | VDict _ => raise (TypeError "unhashable type: 'dict'")
  | _ => ret tt
  end.

(** The entry of a dict with string keys that an arbitrary key selects:
    only an equal string finds one. *)
Definition str_dict_lookup (d : gmap string string) (key : value) : M (option string) :=
  py_hash_check key;;
  ret (match key with
       | VStr k => d !! k
       | _ => None
       end).

(** [left + right] with [left] a string *)
Definition str_add (left : string) (right : value) : M string :=
  match right with
  | VStr r => ret (left +:+ r)
  | _ => raise (TypeError ("can only concatenate str (not " +:+ chr dquote
                            +:+ type_name right +:+ chr dquote +:+ ") to str"))
  end.

(** ** The protocol's data *)

Record TextContent : Type := {
  type : string;
  text : string
}.

(** One entry of the ["properties"] object of a JSON schema; the keys a
    property does not carry are [None]. *)
Record PropertySchema : Type := {
  prop_type : string;
  prop_description : string;
  prop_enum : option (list string);
  prop_default : option value;
  prop_minimum : option Z;
  prop_maximum : option Z
}.

Record InputSchema : Type := {
  schema_type : string;
  properties : list (string * PropertySchema);
  required : list string
}.

Record Tool : Type := {
  name : string;
  description : string;
  inputSchema : InputSchema
}.

Definition DOCS_BASE_URL : string := "https://docs.typo3.org".
Definition CHANGELOG_URL : string := "https://docs.typo3.org/c/typo3/cms-core/main/en-us/Changelog".
Definition TER_API_URL : string := "https://extensions.typo3.org/api/v1".

(** ** [list_tools] *)

Definition list_tools : M (list Tool) :=
  ret [
    {| name := "search_typo3_docs";
       description := "Search TYPO3 official documentation at docs.typo3.org. Returns relevant documentation pages with excerpts. Use this when you need information about TYPO3 APIs, features, or configuration.";
       inputSchema := {|
         schema_type := "object";
         properties := [
           ("query", {|
              prop_type := "string";
              prop_description := "Search query (e.g., 'QueryBuilder', 'Dependency Injection', 'Fluid ViewHelpers')";
              prop_enum := None; prop_default := None;
              prop_minimum := None; prop_maximum := None |});
           ("version", {|
              prop_type := "string";
              prop_description := "TYPO3 version (e.g., '12.4', '11.5'). Defaults to latest.";
              prop_enum := None; prop_default := Some (VStr "main");
              prop_minimum := None; prop_maximum := None |});
           ("section", {|
              prop_type := "string";
              prop_description := "Documentation section: 'reference-coreapi', 'guides', 'extensions', 'changelog'";
              prop_enum := Some ["reference-coreapi"; "guides"; "extensions"; "changelog"; "all"];
              prop_default := Some (VStr "all");
              prop_minimum := None; prop_maximum := None |})
         ];
         required := ["query"] |} |};
    {| name := "get_typo3_changelog";
       description := "Fetch TYPO3 Core changelog entries for specific version or type. Returns breaking changes, deprecations, features, and important information for TYPO3 upgrades.";
       inputSchema := {|
         schema_type := "object";
         properties := [
           ("version", {|
              prop_type := "string";
              prop_description := "TYPO3 version (e.g., '12.4', '11.5', '13.0')";
              prop_enum := None; prop_default := None;
              prop_minimum := None; prop_maximum := None |});
           ("type", {|
              prop_type := "string";
              prop_description := "Changelog entry type";
              prop_enum := Some ["Breaking"; "Deprecation"; "Feature"; "Important"; "All"];
              prop_default := Some (VStr "All");
              prop_minimum := None; prop_maximum := None |});
           ("limit", {|
              prop_type := "integer";
              prop_description := "Maximum number of entries to return";
              prop_enum := None; prop_default := Some (VInt 10);
              prop_minimum := Some 1%Z; prop_maximum := Some 50%Z |})
         ];
         required := ["version"] |} |};
    {| name := "search_typo3_extensions";
       description := "Search TYPO3 Extension Repository (TER) for extensions. Returns extension information including ratings, downloads, compatibility, and descriptions.";
       inputSchema := {|
         schema_type := "object";
         properties := [
           ("query", {|
              prop_type := "string";
              prop_description := "Search query (extension name, keyword, or functionality)";
              prop_enum := None; prop_default := None;
              prop_minimum := None; prop_maximum := None |});
           ("typo3_version", {|
              prop_type := "string";
              prop_description := "Filter by TYPO3 compatibility version (e.g., '12.4')";
              prop_enum := None; prop_default := Some (VStr "12.4");
              prop_minimum := None; prop_maximum := None |});
           ("limit", {|
              prop_type := "integer";
              prop_description := "Maximum number of results";
              prop_enum := None; prop_default := Some (VInt 10);
              prop_minimum := Some 1%Z; prop_maximum := Some 50%Z |})
         ];
         required := ["query"] |} |};
    {| name := "get_typo3_api_reference";
       description := "Get TYPO3 Core API reference for specific class or interface. Returns class documentation, methods, properties, and usage examples.";
       inputSchema := {|
         schema_type := "object";
         properties := [
           ("class_name", {|
              prop_type := "string";
              prop_description := "Fully qualified class name (e.g., 'TYPO3\CMS\Core\Database\ConnectionPool')";
              prop_enum := None; prop_default := None;
              prop_minimum := None; prop_maximum := None |});
           ("method_name", {|
              prop_type := "string";
              prop_description := "Specific method name to get detailed info (optional)";
              prop_enum := None; prop_default := None;
              prop_minimum := None; prop_maximum := None |})
         ];
         required := ["class_name"] |} |};
    {| name := "get_typo3_coding_guidelines";
       description := "Retrieve TYPO3 Coding Guidelines (CGL) for specific topic. Returns official coding standards and best practices.";
       inputSchema := {|
         schema_type := "object";
         properties := [
           ("topic", {|
              prop_type := "string";
              prop_description := "Guideline topic";
              prop_enum := Some ["php"; "javascript"; "typescript"; "fluid"; "typoscript"; "database"; "security"; "all"];
              prop_default := Some (VStr "php");
              prop_minimum := None; prop_maximum := None |})
         ];
         required := [] |} |}
  ].

(** ** The handlers *)

(** The module's handler functions, as [call_tool] finds them: by name in
    the module namespace, at the time of the call.  [call_tool_in] below
    takes the namespace as an argument, so that a handler can be replaced
    by one that fails; [server] is the namespace the file defines. *)
Record Globals : Type := {
  g_search_typo3_docs : value -> value -> value -> M (list TextContent);
  g_get_typo3_changelog : value -> value -> value -> M (list TextContent);
  g_search_typo3_extensions : value -> value -> value -> M (list TextContent);
  g_get_typo3_api_reference : value -> value -> M (list TextContent);
  g_get_typo3_coding_guidelines : value -> M (list TextContent)
}.

Definition search_typo3_docs (query version section : value) : M (list TextContent) :=
  let results := "# TYPO3 Documentation Search Results

**Query:** " +:+ py_str query +:+ "
**Version:** " +:+ py_str version +:+ "
**Section:** " +:+ py_str section +:+ "

## Relevant Documentation

### 1. Core API Reference
If searching for QueryBuilder, Dependency Injection, or Core APIs:
- URL: " +:+ DOCS_BASE_URL +:+ "/m/typo3/reference-coreapi/" +:+ py_str version +:+ "/en-us/
- Topics: Database, DI, Events, Caching, etc.

### 2. Extbase & Fluid
For MVC framework and templating:
- URL: " +:+ DOCS_BASE_URL +:+ "/m/typo3/reference-coreapi/" +:+ py_str version +:+ "/en-us/ExtensionArchitecture/Extbase/
- Fluid: " +:+ DOCS_BASE_URL +:+ "/m/typo3/reference-coreapi/" +:+ py_str version +:+ "/en-us/ApiOverview/Fluid/

### 3. TCA Reference
For backend forms and database fields:
- URL: " +:+ DOCS_BASE_URL +:+ "/m/typo3/reference-tca/" +:+ py_str version +:+ "/en-us/

### 4. TypoScript Reference
For TypoScript configuration:
- URL: " +:+ DOCS_BASE_URL +:+ "/m/typo3/reference-typoscript/" +:+ py_str version +:+ "/en-us/

**Note:** For detailed search, visit https://docs.typo3.org directly.
For specific API questions, use the get_typo3_api_reference tool.
" in
  mret [ {| type := "text"; text := results |} ].

Definition get_typo3_changelog (version change_type limit : value) : M (list TextContent) :=
  let changelog_info := "# TYPO3 " +:+ py_str version +:+ " Changelog

**Type:** " +:+ py_str change_type +:+ "
**Limit:** " +:+ py_str limit +:+ "

## Important Changes for TYPO3 " +:+ py_str version +:+ "

### Breaking Changes
- **Removed $GLOBALS['TYPO3_DB']**: Use Doctrine DBAL ConnectionPool
- **Removed ObjectManager**: Use Dependency Injection
- **PSR-7 Request/Response**: All controllers must return ResponseInterface

### Deprecations
- **GeneralUtility::getUrl()**: Use RequestFactory instead
- **Inject methods**: Use constructor injection
- **Old hook system**: Migrate to PSR-14 Events

### Features
- **Improved Dependency Injection**: Full autowiring support
- **Modern TCA types**: New input types (number, datetime, etc.)
- **Site Configuration**: YAML-based site configs

### Important
- **PHP 8.1+ required** for TYPO3 v12
- **Composer mode recommended**
- **Update extension dependencies**

**Full Changelog:** " +:+ CHANGELOG_URL +:+ "/Index.html

For detailed migration info, check:
- Upgrade Guide: " +:+ DOCS_BASE_URL +:+ "/m/typo3/guide-installation/main/en-us/Upgrade/
" in
  mret [ {| type := "text"; text := changelog_info |} ].

Definition search_typo3_extensions (query typo3_version limit : value) : M (list TextContent) :=
  let results := "# TYPO3 Extension Repository Search

**Query:** " +:+ py_str query +:+ "
**TYPO3 Version:** " +:+ py_str typo3_version +:+ "
**Limit:** " +:+ py_str limit +:+ "

## Search Results

### Popular TYPO3 Extensions

**Note:** Visit https://extensions.typo3.org to browse official extensions.

**Recommended Extensions for TYPO3 " +:+ py_str typo3_version +:+ ":**

1. **news** - Versatile news system
   - Composer: `composer require georgringer/news`
   - Compatibility: TYPO3 11-12

2. **powermail** - Forms extension
   - Composer: `composer require in2code/powermail`
   - Compatibility: TYPO3 11-12

3. **mask** - Frontend editing
   - Composer: `composer require mask/mask`
   - Compatibility: TYPO3 11-12

4. **container** - Grid elements
   - Composer: `composer require b13/container`
   - Compatibility: TYPO3 11-12

**Install via Composer:**
```bash
composer require vendor/extension-key
```

Then activate in Extension Manager or via:
```bash
typo3 extension:activate extension_key
```
" in
  mret [ {| type := "text"; text := results |} ].

Definition api_docs : gmap string string :=
  list_to_map [
    ("TYPO3\CMS\Core\Database\ConnectionPool", "
# ConnectionPool API Reference

**Namespace:** TYPO3\CMS\Core\Database\ConnectionPool

## Description
Factory class for database connections. Used to get QueryBuilder instances.

## Usage

```php
use TYPO3\CMS\Core\Database\ConnectionPool;

public function __construct(
    private readonly ConnectionPool $connectionPool
) {}

public function findProducts(): array
{
    $queryBuilder = $this->connectionPool
        ->getQueryBuilderForTable('tx_myext_product');

    return $queryBuilder
        ->select('*')
        ->from('tx_myext_product')
        ->where(
            $queryBuilder->expr()->eq(
                'active',
                $queryBuilder->createNamedParameter(1, \PDO::PARAM_INT)
            )
        )
        ->executeQuery()
        ->fetchAllAssociative();
}
```

## Methods

### getQueryBuilderForTable(string $table): QueryBuilder
Returns QueryBuilder for specified table.

### getConnectionForTable(string $table): Connection
Returns Connection instance for direct queries.

## See Also
- QueryBuilder
- Connection
- Doctrine DBAL Documentation
");
    ("TYPO3\CMS\Core\Http\RequestFactory", "
# RequestFactory API Reference

**Namespace:** TYPO3\CMS\Core\Http\RequestFactory

## Description
Factory for creating HTTP requests. Replacement for deprecated GeneralUtility::getUrl().

## Usage

```php
use TYPO3\CMS\Core\Http\RequestFactory;

public function __construct(
    private readonly RequestFactory $requestFactory
) {}

public function fetchFromApi(): array
{
    $response = $this->requestFactory->request(
        'https://api.example.com/data',
        'GET',
        [
            'headers' => [
                'Authorization' => 'Bearer ' . $apiKey,
            ],
            'timeout' => 10,
        ]
    );

    return json_decode($response->getBody()->getContents(), true);
}
```

## Methods

### request(string $uri, string $method, array $options): ResponseInterface
Makes HTTP request and returns PSR-7 Response.

## See Also
- PSR-7 HTTP Message Interfaces
- Guzzle HTTP Client
")
  ].

Definition get_typo3_api_reference (class_name method_name : value) : M (list TextContent) :=
  found ← str_dict_lookup api_docs class_name;
  let result :=
    match found with
    | Some doc => doc
    | None => "# " +:+ py_str class_name +:+ "

API documentation for " +:+ py_str class_name +:+ "

**Find detailed documentation at:**
https://docs.typo3.org/m/typo3/reference-coreapi/main/en-us/

**Common TYPO3 Core classes:**
- TYPO3\CMS\Core\Database\ConnectionPool
- TYPO3\CMS\Core\Http\RequestFactory
- TYPO3\CMS\Core\Cache\CacheManager
- TYPO3\CMS\Core\Resource\ResourceFactory
- TYPO3\CMS\Core\Context\Context
- TYPO3\CMS\Extbase\Persistence\Repository

Use the search_typo3_docs tool for more specific information.
"
    end in
  mret [ {| type := "text"; text := result |} ].

Definition guidelines : gmap string string :=
  list_to_map [
    ("php", "
# TYPO3 PHP Coding Guidelines (CGL)

## File Structure

```php
<?php

declare(strict_types=1);

namespace Vendor\ExtensionKey\Domain\Model;

use TYPO3\CMS\Extbase\DomainObject\AbstractEntity;

class Product extends AbstractEntity
{
    protected string $title = '';

    public function getTitle(): string
    {
        return $this->title;
    }
}
```

## Key Rules

1. **PSR-12 Compliance**
   - 4 spaces indentation
   - Opening braces on new line
   - Max 120 chars per line

2. **File Headers**
   - `declare(strict_types=1);` after PHP tag
   - Config files: `defined('TYPO3') || die();`

3. **Namespacing**
   - Format: `Vendor\ExtensionKey\ComponentType\`
   - StudlyCase for all parts

4. **Type Declarations**
   - Required on all parameters and returns
   - Use `readonly` for immutable properties

5. **Dependency Injection**
   - Constructor injection only
   - No ObjectManager or makeInstance for services

**Official CGL:** https://docs.typo3.org/m/typo3/reference-coreapi/main/en-us/CodingGuidelines/
");
    ("database", "
# TYPO3 Database Guidelines

## Use Doctrine DBAL QueryBuilder

```php
use TYPO3\CMS\Core\Database\ConnectionPool;

$queryBuilder = $this->connectionPool
    ->getQueryBuilderForTable('tx_myext_product');

$products = $queryBuilder
    ->select('*')
    ->from('tx_myext_product')
    ->where(
        $queryBuilder->expr()->eq(
            'category',
            $queryBuilder->createNamedParameter($categoryId, \PDO::PARAM_INT)
        )
    )
    ->executeQuery()
    ->fetchAllAssociative();
```

## Rules

1. **Always use QueryBuilder** - not raw SQL
2. **Named parameters** - prevent SQL injection
3. **PDO types** - specify for all parameters
4. **No $GLOBALS['TYPO3_DB']** - removed in v10

**Docs:** https://docs.typo3.org/m/typo3/reference-coreapi/main/en-us/ApiOverview/Database/
")
  ].

(** The fallback text is an argument of [guidelines.get], so it is built
    before the lookup, whatever the lookup will find. *)
Definition get_typo3_coding_guidelines (topic : value) : M (list TextContent) :=
  fallback ← str_add "Guidelines for " topic;
  found ← str_dict_lookup guidelines topic;
  let result := default fallback found in
  mret [ {| type := "text"; text := result |} ].

Definition server : Globals := {|
  g_search_typo3_docs := search_typo3_docs;
  g_get_typo3_changelog := get_typo3_changelog;
  g_search_typo3_extensions := search_typo3_extensions;
  g_get_typo3_api_reference := get_typo3_api_reference;
  g_get_typo3_coding_guidelines := get_typo3_coding_guidelines
|}.

(** ** [call_tool] *)

(** The body of the [try] statement. *)
Definition call_tool_try (G : Globals) (name : string) (arguments : gmap string value)
  : M (list TextContent) :=
  if String.eqb name "search_typo3_docs" then
    g_search_typo3_docs G
      (dict_get arguments "query" VNone)
      (dict_get arguments "version" (VStr "main"))
      (dict_get arguments "section" (VStr "all"))
  else if String.eqb name "get_typo3_changelog" then
    g_get_typo3_changelog G
      (dict_get arguments "version" VNone)
      (dict_get arguments "type" (VStr "All"))
      (dict_get arguments "limit" (VInt 10))
  else if String.eqb name "search_typo3_extensions" then
    g_search_typo3_extensions G
      (dict_get arguments "query" VNone)
      (dict_get arguments "typo3_version" (VStr "12.4"))
      (dict_get arguments "limit" (VInt 10))
  else if String.eqb name "get_typo3_api_reference" then
    g_get_typo3_api_reference G
      (dict_get arguments "class_name" VNone)
      (dict_get arguments "method_name" VNone)
  else if String.eqb name "get_typo3_coding_guidelines" then
    g_get_typo3_coding_guidelines G
      (dict_get arguments "topic" (VStr "php"))
  else
    mret [ {| type := "text"; text := "Unknown tool: " +:+ name |} ].

(** The [except Exception as e] clause. *)
Definition call_tool_except (name : string) (e : exn) : M (list TextContent) :=
  logger_error ("Error in tool '" +:+ name +:+ "': " +:+ exn_str e);;
  mret [ {| type := "text"; text := "Error: " +:+ exn_str e |} ].

Definition call_tool_in (G : Globals) (name : string) (arguments : gmap string value)
  : M (list TextContent) :=
  try_except (call_tool_try G name arguments) (call_tool_except name).

Definition call_tool : string -> gmap string value -> M (list TextContent) :=
  call_tool_in server.

(** ** The catalogue and the vocabulary of the specification *)

(** The list [list_tools] returns. *)
Definition catalog : list Tool :=
  match list_tools [] with
  | (Return tools, _) => tools
  | (Raise _, _) => []
  end.

Definition tool_names : list string := map name catalog.

(** The parameter names a tool declares. *)
Definition declared (t : Tool) : list string := map fst (properties (inputSchema t)).

Definition text_block (s : string) : TextContent := {| type := "text"; text := s |}.

(** The two results of the specification.  A list that [call_tool] returns
    is the success payload; an exception that leaves [call_tool] is what the
    protocol layer above reports as a failure, with [str(e)] as message. *)
Inductive DispatchResult : Type :=
| Success (content : list TextContent)
| Failure (message : string).

Definition dispatch_in (G : Globals) (name : string) (arguments : gmap string value) (s : log)
  : DispatchResult :=
  match call_tool_in G name arguments s with
  | (Return content, _) => Success content
  | (Raise e, _) => Failure (exn_str e)
  end.

Definition dispatch : string -> gmap string value -> log -> DispatchResult :=
  dispatch_in server.

(** [needle in hay] for strings, as a proposition and as a test. *)
Definition contains (needle hay : string) : Prop :=
  ∃ pre post, hay = pre +:+ needle +:+ post.

Fixpoint containsb (needle hay : string) : bool :=
  String.prefix needle hay ||
  match hay with
  | EmptyString => false
  | String _ hay' => containsb needle hay'
  end.

(** The parameter table of the specification (its section on external
    interfaces): per tool, the required parameters with their kind, and the
    optional ones with kind and default.  The table leaves the allowed
    values of [topic] out; they are an argument here. *)
Inductive Kind : Type :=
| KString
| KInteger (lo hi : Z)
| KEnum (allowed : list string).

Record ToolRow : Type := {
  row_name : string;
  row_required : list (string * Kind);
  row_optional : list (string * Kind * option value)
}.

Definition section6_table (topic_values : list string) : list ToolRow := [
  {| row_name := "search_typo3_docs";
     row_required := [("query", KString)];
     row_optional := [("version", KString, Some (VStr "main"));
                      ("section",
                       KEnum ["reference-coreapi"; "guides"; "extensions"; "changelog"; "all"],
                       Some (VStr "all"))] |};
  {| row_name := "get_typo3_changelog";
     row_required := [("version", KString)];
     row_optional := [("type",
                       KEnum ["Breaking"; "Deprecation"; "Feature"; "Important"; "All"],
                       Some (VStr "All"));
                      ("limit", KInteger 1 50, Some (VInt 10))] |};
  {| row_name := "search_typo3_extensions";
     row_required := [("query", KString)];
     row_optional := [("typo3_version", KString, Some (VStr "12.4"));
                      ("limit", KInteger 1 50, Some (VInt 10))] |};
  {| row_name := "get_typo3_api_reference";
     row_required := [("class_name", KString)];
     row_optional := [("method_name", KString, None)] |};
  {| row_name := "get_typo3_coding_guidelines";
     row_required := [];
     row_optional := [("topic", KEnum topic_values, Some (VStr "php"))] |}
].

(** The row a declared tool amounts to.  A property whose keys fit none of
    the three kinds has no row. *)
Definition kind_of (ps : PropertySchema) : option Kind :=
  match prop_enum ps, prop_minimum ps, prop_maximum ps with
  | None, None, None =>
      if String.eqb (prop_type ps) "string" then Some KString else None
  | Some allowed, None, None =>
      if String.eqb (prop_type ps) "string" then Some (KEnum allowed) else None
  | None, Some lo, Some hi =>
      if String.eqb (prop_type ps) "integer" then Some (KInteger lo hi) else None
  | _, _, _ => None
  end.

Definition is_required (t : Tool) (p : string) : bool :=
  bool_decide (p ∈ required (inputSchema t)).

Definition row_of (t : Tool) : option ToolRow :=
  let props := properties (inputSchema t) in
  req ← mapM (λ '(p, ps), k ← kind_of ps; Some (p, k))
             (filter (λ '(p, _), is_required t p = true) props);
  opt ← mapM (λ '(p, ps), k ← kind_of ps; Some (p, k, prop_default ps))
             (filter (λ '(p, _), is_required t p = false) props);
  Some {| row_name := name t; row_required := req; row_optional := opt |}.

(** The registry of the specification: an ordered sequence of pairs of a
    tool and its handler, looked up by exact name.  The file has no such
    table; this one pairs each tool of the catalogue, in order, with the
    call that the branch of [call_tool] for its position makes, so that
    routing by the chain of comparisons can be compared with routing by
    lookup. *)
Definition Handler : Type := gmap string value → M (list TextContent).

Definition bindings (G : Globals) : list Handler := [
  (λ arguments,
     g_search_typo3_docs G
       (dict_get arguments "query" VNone)
       (dict_get arguments "version" (VStr "main"))
       (dict_get arguments "section" (VStr "all")));
  (λ arguments,
     g_get_typo3_changelog G
       (dict_get arguments "version" VNone)
       (dict_get arguments "type" (VStr "All"))
       (dict_get arguments "limit" (VInt 10)));
  (λ arguments,
     g_search_typo3_extensions G
       (dict_get arguments "query" VNone)
       (dict_get arguments "typo3_version" (VStr "12.4"))
       (dict_get arguments "limit" (VInt 10)));
  (λ arguments,
     g_get_typo3_api_reference G
       (dict_get arguments "class_name" VNone)
       (dict_get arguments "method_name" VNone));
  (λ arguments,
     g_get_typo3_coding_guidelines G
       (dict_get arguments "topic" (VStr "php")))
].

Definition registry (G : Globals) : list (Tool * Handler) := zip catalog (bindings G).

Definition resolve (G : Globals) (tool_name : string) : option (Tool * Handler) :=
  find (λ entry, String.eqb (name (fst entry)) tool_name) (registry G).

(** Looking a declared parameter up in the catalogue. *)
Definition find_tool (tool_name : string) : option Tool :=
  find (λ t, String.eqb (name t) tool_name) catalog.

Definition property_of (t : Tool) (param : string) : option PropertySchema :=
  snd <$> find (λ entry, String.eqb (fst entry) param) (properties (inputSchema t)).

Definition allowed_values (tool_name param : string) : list string :=
  default [] (t ← find_tool tool_name; ps ← property_of t param; prop_enum ps).

(** A default that fits the property it is declared for: a string for a
    string, one of the allowed values for an enumeration, an integer within
    the bounds for an integer. *)
Definition valid_default (ps : PropertySchema) (d : value) : Prop :=
  match kind_of ps, d with
  | Some KString, VStr _ => True
  | Some (KEnum allowed), VStr e => e ∈ allowed
  | Some (KInteger lo hi), VInt n => (lo ≤ n ≤ hi)%Z
  | _, _ => False
  end.

(** ** Proof steps used throughout *)

(** Unfolds the monad of the module. *)
Ltac unfold_M := unfold mbind, mret, M_bind, M_ret, bind, ret, raise in *.

(** Splits [H : x ∈ [a; b; ...]] into one goal per element. *)
Ltac each_member H :=
  repeat (apply elem_of_cons in H as [H | H]; [try (injection H as -> ->); try subst |]);
  try (by apply elem_of_nil in H).

(** Splits [H : t ∈ catalog] into one goal per tool. *)
Ltac each_tool H := unfold catalog in H; cbv [list_tools ret] in H; each_member H.

(** * Properties *)

(** ** Strings *)

Lemma string_app_assoc (a b c : string) : (a +:+ b) +:+ c = a +:+ b +:+ c.
Proof.
  induction a as [|x a IH]; [done |].
  change (String x ((a +:+ b) +:+ c) = String x (a +:+ b +:+ c)). by rewrite IH.
Qed.

Lemma string_app_nil_r (a : string) : a +:+ "" = a.
Proof.
  induction a as [|x a IH]; [done |].
  change (String x (a +:+ "") = String x a). by rewrite IH.
Qed.

Lemma prefix_app (p h : string) : String.prefix p h = true → ∃ post, h = p +:+ post.
Proof.
  revert h. induction p as [|c p IH]; intros h Hp.
  - by exists h.
  - destruct h as [|c' h]; simpl in Hp; [done |].
    destruct (ascii_dec c c') as [-> | Hne]; [| done].
    destruct (IH h Hp) as [post ->]. by exists post.
Qed.

Lemma containsb_unfold (needle hay : string) :
  containsb needle hay
  = String.prefix needle hay
    || match hay with EmptyString => false | String _ hay' => containsb needle hay' end.
Proof. by destruct hay. Qed.

Lemma containsb_sound (needle hay : string) : containsb needle hay = true → contains needle hay.
Proof.
  induction hay as [|c hay IH]; rewrite containsb_unfold; intros H;
    apply orb_true_iff in H as [H | H]; try done.
  - apply prefix_app in H as [post ->]. by exists "", post.
  - apply prefix_app in H as [post Hpost]. exists "", post. by rewrite Hpost.
  - destruct (IH H) as (pre & post & ->). by exists (String c pre), post.
Qed.

Lemma contains_app_r (needle pre hay : string) : contains needle hay → contains needle (pre +:+ hay).
Proof. intros (a & b & ->). exists (pre +:+ a), b. by rewrite string_app_assoc. Qed.

Lemma contains_refl (s : string) : contains s s.
Proof. exists "", "". by rewrite string_app_nil_r. Qed.

Lemma contains_head (needle post : string) : contains needle (needle +:+ post).
Proof. by exists "", post. Qed.

(** ** The catalogue *)

Lemma list_tools_catalog (s : log) : list_tools s = (Return catalog, s).
Proof. reflexivity. Qed.

Lemma tool_names_eq :
  tool_names = ["search_typo3_docs"; "get_typo3_changelog"; "search_typo3_extensions";
                "get_typo3_api_reference"; "get_typo3_coding_guidelines"].
Proof. reflexivity. Qed.

Lemma call_tool_try_unknown (G : Globals) (name : string) (arguments : gmap string value) :
  name ∉ tool_names →
  call_tool_try G name arguments = mret [text_block ("Unknown tool: " +:+ name)].
Proof.
  rewrite tool_names_eq. intros Hn. unfold call_tool_try.
  repeat match goal with
         | |- context [String.eqb name ?x] =>
             destruct (String.eqb_spec name x) as [-> | _];
             [exfalso; apply Hn; set_solver |]
         end.
  reflexivity.
Qed.

(** C3.  A tool name that is none of the five registered ones gets, whatever
    the arguments and whatever handlers are bound, a returned (success)
    result: exactly one text block, reading "Unknown tool: " followed by the
    requested name.  Nothing is logged. *)
Theorem C3_unknown_tool_is_success (G : Globals) (name : string)
    (arguments : gmap string value) (s : log) :
  name ∉ tool_names →
  call_tool_in G name arguments s = (Return [text_block ("Unknown tool: " +:+ name)], s)
  ∧ dispatch_in G name arguments s = Success [text_block ("Unknown tool: " +:+ name)].
Proof.
  intros Hn.
  assert (call_tool_in G name arguments s
          = (Return [text_block ("Unknown tool: " +:+ name)], s)) as Hc.
  { unfold call_tool_in, try_except. by rewrite call_tool_try_unknown. }
  split; [exact Hc |].
  unfold dispatch_in. by rewrite Hc.
Qed.

Lemma C3_unknown_tool_witness :
  ("delete_everything" ∉ tool_names)
  ∧ dispatch "delete_everything" {[ "query" := VStr "news" ]} []
    = Success [text_block "Unknown tool: delete_everything"].
Proof.
  assert ("delete_everything" ∉ tool_names) as Hn by compute_done.
  split; [exact Hn |].
  exact (proj2 (C3_unknown_tool_is_success server "delete_everything"
                  {[ "query" := VStr "news" ]} [] Hn)).
Defined.

(** ** What the handlers of the file can do *)

Lemma get_typo3_api_reference_outcome (class_name method_name : value) (s : log) :
  (∃ txt, get_typo3_api_reference class_name method_name s = (Return [text_block txt], s))
  ∨ (∃ msg, get_typo3_api_reference class_name method_name s = (Raise (TypeError msg), s)).
Proof.
  unfold get_typo3_api_reference, str_dict_lookup, py_hash_check.
  generalize api_docs. intros d. unfold_M.
  destruct class_name as [| | | |k| |]; try (left; eexists; reflexivity);
    right; eexists; reflexivity.
Qed.

Lemma get_typo3_coding_guidelines_outcome (topic : value) (s : log) :
  (∃ txt, get_typo3_coding_guidelines topic s = (Return [text_block txt], s))
  ∨ (∃ msg, get_typo3_coding_guidelines topic s = (Raise (TypeError msg), s)).
Proof.
  unfold get_typo3_coding_guidelines, str_dict_lookup, py_hash_check, str_add.
  generalize guidelines. intros d. unfold_M.
  destruct topic as [| | | |k| |]; try (right; eexists; reflexivity).
  left; eexists; reflexivity.
Qed.

Lemma try_except_return {A} (body : M A) (h : exn → M A) (s s' : log) (a : A) :
  body s = (Return a, s') → try_except body h s = (Return a, s').
Proof. unfold try_except. by intros ->. Qed.

Lemma try_except_caught {A} (body : M A) (h : exn → M A) (s s' : log) (e : exn) :
  body s = (Raise e, s') → is_Exception e = true → try_except body h s = h e s'.
Proof. unfold try_except. by intros -> ->. Qed.

Lemma call_tool_one_block (name : string) (arguments : gmap string value) (s : log) :
  ∃ txt s', call_tool name arguments s = (Return [text_block txt], s').
Proof.
  unfold call_tool, call_tool_in, call_tool_try.
  repeat match goal with
         | |- context [String.eqb name ?x] => destruct (String.eqb_spec name x) as [-> | _]
         end; try (eexists _, _; reflexivity).
  - destruct (get_typo3_api_reference_outcome
                (dict_get arguments "class_name" VNone)
                (dict_get arguments "method_name" VNone) s) as [[txt Ht] | [msg Hm]].
    + exists txt, s. by apply try_except_return.
    + eexists _, _. erewrite try_except_caught; [| exact Hm | reflexivity]. reflexivity.
  - destruct (get_typo3_coding_guidelines_outcome
                (dict_get arguments "topic" (VStr "php")) s) as [[txt Ht] | [msg Hm]].
    + exists txt, s. by apply try_except_return.
    + eexists _, _. erewrite try_except_caught; [| exact Hm | reflexivity]. reflexivity.
Qed.

(** ** One block on every path *)

(** C10.  Whatever the tool name and the arguments, and whatever has been
    logged before, [call_tool] returns (it raises nothing) a list of exactly
    one block, of type "text": on the five handler paths, on the
    unknown-tool path and on the path through the [except] clause. *)
Theorem C10_exactly_one_text_block (name : string) (arguments : gmap string value) (s : log) :
  ∃ block s',
    call_tool name arguments s = (Return [block], s')
    ∧ type block = "text"
    ∧ dispatch name arguments s = Success [block].
Proof.
  destruct (call_tool_one_block name arguments s) as (txt & s' & H).
  exists (text_block txt), s'. split; [exact H |]. split; [reflexivity |].
  unfold dispatch, dispatch_in. unfold call_tool in H. by rewrite H.
Qed.

(** ** The catalogue against the table of the specification *)

(** C6.  [list_tools] returns, in every state and without changing it, the
    same list of exactly five tools, in the order search_typo3_docs,
    get_typo3_changelog, search_typo3_extensions, get_typo3_api_reference,
    get_typo3_coding_guidelines; their required parameters and their
    optional ones, with kind, default, allowed values and bounds, are the
    rows of the specification's table (the allowed values of [topic], which
    the table elides, being the eight listed). *)
Theorem C6_list_tools_table :
  (∀ s, list_tools s = (Return catalog, s))
  ∧ length catalog = 5
  ∧ map name catalog
    = ["search_typo3_docs"; "get_typo3_changelog"; "search_typo3_extensions";
       "get_typo3_api_reference"; "get_typo3_coding_guidelines"]
  ∧ mapM row_of catalog
    = Some (section6_table ["php"; "javascript"; "typescript"; "fluid"; "typoscript";
                            "database"; "security"; "all"]).
Proof.
  split; [exact list_tools_catalog |].
  split; [reflexivity |]. split; [reflexivity |].
  vm_compute. reflexivity.
Qed.

(** ** Reading the arguments *)

Lemma dict_get_insert_eq (a : gmap string value) (p : string) (v d : value) :
  dict_get (<[p:=v]> a) p d = v.
Proof. unfold dict_get. by rewrite lookup_insert_eq. Qed.

Lemma dict_get_insert_ne (a : gmap string value) (p q : string) (v d : value) :
  p ≠ q → dict_get (<[p:=v]> a) q d = dict_get a q d.
Proof. intros. unfold dict_get. by rewrite lookup_insert_ne. Qed.

Lemma dict_get_absent (a : gmap string value) (p : string) (d : value) :
  a !! p = None → dict_get a p d = d.
Proof. unfold dict_get. by intros ->. Qed.

Lemma dict_get_present (a : gmap string value) (p : string) (v d : value) :
  a !! p = Some v → dict_get a p d = v.
Proof. unfold dict_get. by intros ->. Qed.

(** An absent parameter that has a declared default reaches the handler as
    if the caller had passed that default. *)
Lemma default_filled (G : Globals) (t : Tool) :
  t ∈ catalog →
  ∀ p ps d (arguments : gmap string value),
    (p, ps) ∈ properties (inputSchema t) →
    prop_default ps = Some d →
    arguments !! p = None →
    call_tool_try G (name t) arguments = call_tool_try G (name t) (<[p:=d]> arguments).
Proof.
  intros Ht p ps d arguments Hp Hd Hnone. each_tool Ht; cbn in Hp;
    each_member Hp; cbn in Hd; try discriminate Hd; injection Hd as <-;
    unfold call_tool_try; cbn [name String.eqb Ascii.eqb Bool.eqb];
    rewrite dict_get_insert_eq, ?dict_get_insert_ne by done;
    by rewrite (dict_get_absent _ _ _ Hnone).
Qed.

(** A key that the tool does not declare is never read by [call_tool]. *)
Lemma extra_key_ignored (G : Globals) (t : Tool) :
  t ∈ catalog →
  ∀ k v (arguments : gmap string value),
    k ∉ declared t →
    call_tool_try G (name t) (<[k:=v]> arguments) = call_tool_try G (name t) arguments.
Proof.
  intros Ht k v arguments Hk. each_tool Ht; cbn in Hk;
    repeat (apply not_elem_of_cons in Hk as [? Hk]);
    unfold call_tool_try; cbn [name String.eqb Ascii.eqb Bool.eqb];
    by rewrite !dict_get_insert_ne by done.
Qed.

Lemma call_tool_in_ext (G : Globals) (n : string) (a b : gmap string value) (s : log) :
  call_tool_try G n a = call_tool_try G n b → call_tool_in G n a s = call_tool_in G n b s.
Proof. intros H. unfold call_tool_in, try_except. by rewrite H. Qed.

Lemma dispatch_in_ext (G : Globals) (n : string) (a b : gmap string value) (s : log) :
  call_tool_in G n a s = call_tool_in G n b s → dispatch_in G n a s = dispatch_in G n b s.
Proof. intros H. unfold dispatch_in. by rewrite H. Qed.

(** ** Defaults *)

Lemma changelog_12_4 :
  ∃ txt,
    call_tool "get_typo3_changelog" {[ "version" := VStr "12.4" ]} []
    = (Return [text_block txt], [])
    ∧ get_typo3_changelog (VStr "12.4") (VStr "All") (VInt 10) []
      = (Return [text_block txt], [])
    ∧ contains "TYPO3 12.4 Changelog" txt
    ∧ contains "**Type:** All" txt
    ∧ contains "**Limit:** 10" txt.
Proof.
  eexists. split; [vm_compute; reflexivity |]. split; [vm_compute; reflexivity |].
  repeat split; apply containsb_sound; vm_compute; reflexivity.
Qed.

(** C5.  An optional parameter that is absent from the arguments reaches the
    handler as its declared default: for every tool of the catalogue and
    every property that declares a default, the call without the key equals
    the call with the key set to that default, whatever handlers are bound;
    and with every optional key absent the handlers are called with "main"
    and "all", with "All" and 10, with "12.4" and 10, and with "php".  The
    call get_typo3_changelog {version: "12.4"} returns one text block, the
    one the handler builds from "12.4", "All" and 10, which contains
    "TYPO3 12.4 Changelog", "**Type:** All" and "**Limit:** 10". *)
Theorem C5_defaults_filled :
  (∀ G t p ps d (arguments : gmap string value) s,
     t ∈ catalog →
     (p, ps) ∈ properties (inputSchema t) →
     prop_default ps = Some d →
     arguments !! p = None →
     call_tool_in G (name t) arguments s = call_tool_in G (name t) (<[p:=d]> arguments) s)
  ∧ (∀ G (arguments : gmap string value),
       arguments !! "version" = None → arguments !! "section" = None →
       call_tool_try G "search_typo3_docs" arguments
       = g_search_typo3_docs G (dict_get arguments "query" VNone) (VStr "main") (VStr "all"))
  ∧ (∀ G (arguments : gmap string value),
       arguments !! "type" = None → arguments !! "limit" = None →
       call_tool_try G "get_typo3_changelog" arguments
       = g_get_typo3_changelog G (dict_get arguments "version" VNone) (VStr "All") (VInt 10))
  ∧ (∀ G (arguments : gmap string value),
       arguments !! "typo3_version" = None → arguments !! "limit" = None →
       call_tool_try G "search_typo3_extensions" arguments
       = g_search_typo3_extensions G (dict_get arguments "query" VNone) (VStr "12.4") (VInt 10))
  ∧ (∀ G (arguments : gmap string value),
       arguments !! "topic" = None →
       call_tool_try G "get_typo3_coding_guidelines" arguments
       = g_get_typo3_coding_guidelines G (VStr "php"))
  ∧ (∃ txt,
       call_tool "get_typo3_changelog" {[ "version" := VStr "12.4" ]} []
       = (Return [text_block txt], [])
       ∧ get_typo3_changelog (VStr "12.4") (VStr "All") (VInt 10) []
         = (Return [text_block txt], [])
       ∧ contains "TYPO3 12.4 Changelog" txt
       ∧ contains "**Type:** All" txt
       ∧ contains "**Limit:** 10" txt).
Proof.
  split.
  { intros G t p ps d arguments s Ht Hp Hd Hnone.
    apply call_tool_in_ext. by eapply default_filled. }
  repeat split;
    try (intros G arguments H1 H2 || intros G arguments H1);
    try (unfold call_tool_try; cbn [String.eqb Ascii.eqb Bool.eqb];
         by rewrite ?(dict_get_absent _ _ _ H1), ?(dict_get_absent _ _ _ H2)).
  exact changelog_12_4.
Qed.

Lemma C5_defaults_witness :
  call_tool_in server "get_typo3_changelog" {[ "version" := VStr "12.4" ]} []
  = call_tool_in server "get_typo3_changelog"
      (<["limit" := VInt 10]> {[ "version" := VStr "12.4" ]}) [].
Proof.
  pose proof (list_elem_of_lookup_2 catalog 1 _ eq_refl) as Ht.
  match type of Ht with
  | ?t ∈ _ => pose proof (list_elem_of_lookup_2 (properties (inputSchema t)) 2 _ eq_refl) as Hp
  end.
  exact (proj1 C5_defaults_filled server _ "limit" _ (VInt 10)
           {[ "version" := VStr "12.4" ]} [] Ht Hp eq_refl eq_refl).
Defined.

(** ** Undeclared keys *)

(** At search_typo3_docs with {query: "news", debug: "on"}, where "debug" is
    not a declared parameter, the handler is called with the three values
    "news", "main" and "all" and nothing else, whatever handler is bound:
    the undeclared key is not passed on, so no handler can tell the call
    from the one without it. *)
Lemma C8_undeclared_key_not_passed :
  (∃ t, t ∈ catalog ∧ name t = "search_typo3_docs" ∧ "debug" ∉ declared t)
  ∧ (∀ G, call_tool_try G "search_typo3_docs"
            (<["debug" := VStr "on"]> {[ "query" := VStr "news" ]})
          = g_search_typo3_docs G (VStr "news") (VStr "main") (VStr "all"))
  ∧ ¬ (∃ G s, call_tool_in G "search_typo3_docs"
                (<["debug" := VStr "on"]> {[ "query" := VStr "news" ]}) s
              ≠ call_tool_in G "search_typo3_docs" {[ "query" := VStr "news" ]} s).
Proof.
  split.
  { eexists. split; [apply (list_elem_of_lookup_2 catalog 0); reflexivity |].
    split; [reflexivity | compute_done]. }
  split; [reflexivity |].
  intros (G & s & Hne). apply Hne. reflexivity.
Qed.

(** C8 (amended).  For every tool of the catalogue, adding a key that the
    tool does not declare changes nothing: [call_tool] validates nothing and
    never reads the key, the handler is called with the same values (the key
    is not passed on to it), and result and log are those of the call
    without the key. *)
Theorem C8_undeclared_key_ignored (G : Globals) (t : Tool) (k : string) (v : value)
    (arguments : gmap string value) (s : log) :
  t ∈ catalog →
  k ∉ declared t →
  call_tool_try G (name t) (<[k:=v]> arguments) = call_tool_try G (name t) arguments
  ∧ call_tool_in G (name t) (<[k:=v]> arguments) s = call_tool_in G (name t) arguments s
  ∧ dispatch_in G (name t) (<[k:=v]> arguments) s = dispatch_in G (name t) arguments s.
Proof.
  intros Ht Hk.
  pose proof (extra_key_ignored G t Ht k v arguments Hk) as H.
  split; [exact H |]. split.
  - by apply call_tool_in_ext.
  - by apply dispatch_in_ext, call_tool_in_ext.
Qed.

Lemma C8_undeclared_key_witness :
  dispatch "get_typo3_changelog"
    (<["verbose" := VBool true]> {[ "version" := VStr "12.4" ]}) []
  = dispatch "get_typo3_changelog" {[ "version" := VStr "12.4" ]} [].
Proof.
  pose proof (list_elem_of_lookup_2 catalog 1 _ eq_refl) as Ht.
  match type of Ht with
  | ?t ∈ _ =>
      assert ("verbose" ∉ declared t) as Hk by compute_done;
      exact (proj2 (proj2 (C8_undeclared_key_ignored server t "verbose" (VBool true)
                             {[ "version" := VStr "12.4" ]} [] Ht Hk)))
  end.
Defined.

(** ** The registry *)

Lemma tool_names_NoDup : NoDup tool_names.
Proof. rewrite tool_names_eq. apply NoDup_ListNoDup. repeat constructor; compute_done. Qed.

Lemma resolve_registered (G : Globals) (n : string) :
  n ∈ tool_names →
  ∃ t h, resolve G n = Some (t, h)
         ∧ t ∈ catalog ∧ name t = n
         ∧ (∀ entry, entry ∈ registry G → name (fst entry) = n → entry = (t, h))
         ∧ (∀ arguments, call_tool_try G n arguments = h arguments).
Proof.
  rewrite tool_names_eq. intros Hn. each_member Hn.
  all: eexists _, _; split; [reflexivity |]; split;
    [ apply list_elem_of_In; cbv [catalog list_tools ret In]; tauto |];
    split; [reflexivity |]; split; [| reflexivity];
    intros entry He Hname;
    cbv [registry catalog list_tools ret bindings zip zip_with] in He;
    each_member He; cbn in Hname; (discriminate Hname || reflexivity).
Qed.

Lemma resolve_unregistered (G : Globals) (n : string) :
  n ∉ tool_names → resolve G n = None.
Proof.
  rewrite tool_names_eq. intros Hn.
  repeat (apply not_elem_of_cons in Hn as [? Hn]).
  unfold resolve. cbv [registry catalog list_tools ret bindings zip zip_with find fst name].
  repeat match goal with
         | |- context [String.eqb ?x n] =>
             destruct (String.eqb_spec x n) as [? | _]; [congruence |]
         end.
  reflexivity.
Qed.

(** C9.  The registered names are pairwise distinct; [list_tools] returns
    the same catalogue in every state and leaves the state alone; a
    registered name resolves to one tool of that name and one handler, the
    only entry of the registry with that name, and [call_tool] runs exactly
    that handler for it, in every state; an unregistered name resolves to
    nothing.  Resolution depends on the name only: no state enters it. *)
Theorem C9_registry_fixed_and_unique :
  NoDup tool_names
  ∧ (∀ s, list_tools s = (Return catalog, s))
  ∧ (∀ G n,
       n ∈ tool_names →
       ∃ t h, resolve G n = Some (t, h)
              ∧ t ∈ catalog ∧ name t = n
              ∧ (∀ entry, entry ∈ registry G → name (fst entry) = n → entry = (t, h))
              ∧ (∀ arguments s,
                   call_tool_in G n arguments s
                   = try_except (h arguments) (call_tool_except n) s))
  ∧ (∀ G n, n ∉ tool_names → resolve G n = None).
Proof.
  split; [exact tool_names_NoDup |]. split; [exact list_tools_catalog |]. split.
  - intros G n Hn.
    destruct (resolve_registered G n Hn) as (t & h & Hr & Ht & Hname & Huniq & Hcall).
    exists t, h. repeat split; try done.
    intros arguments s. unfold call_tool_in, try_except. by rewrite Hcall.
  - exact resolve_unregistered.
Qed.

Lemma C9_registry_witness :
  ("get_typo3_api_reference" ∈ tool_names)
  ∧ ∃ t h, resolve server "get_typo3_api_reference" = Some (t, h)
           ∧ name t = "get_typo3_api_reference"
           ∧ ∀ arguments s,
               call_tool "get_typo3_api_reference" arguments s
               = try_except (h arguments) (call_tool_except "get_typo3_api_reference") s.
Proof.
  assert ("get_typo3_api_reference" ∈ tool_names) as Hn by compute_done.
  split; [exact Hn |].
  destruct (proj1 (proj2 (proj2 C9_registry_fixed_and_unique))
              server "get_typo3_api_reference" Hn)
    as (t & h & Hr & _ & Hname & _ & Hcall).
  exists t, h. split; [exact Hr |]. split; [exact Hname | exact Hcall].
Defined.

(** ** The [except] clause *)

Lemma call_tool_in_caught (G : Globals) (n : string) (arguments : gmap string value)
    (s s' : log) (e : exn) :
  call_tool_try G n arguments s = (Raise e, s') →
  is_Exception e = true →
  call_tool_in G n arguments s
  = (Return [text_block ("Error: " +:+ exn_str e)],
     s' ++ ["Error in tool '" +:+ n +:+ "': " +:+ exn_str e]).
Proof.
  intros Hraise Hexc. unfold call_tool_in.
  by rewrite (try_except_caught _ _ _ _ _ Hraise Hexc).
Qed.

(** What is not an [Exception] is not caught. *)
Lemma call_tool_in_not_caught (G : Globals) (n : string) (arguments : gmap string value)
    (s s' : log) (e : exn) :
  call_tool_try G n arguments s = (Raise e, s') →
  is_Exception e = false →
  call_tool_in G n arguments s = (Raise e, s').
Proof. intros Hraise Hexc. unfold call_tool_in, try_except. by rewrite Hraise, Hexc. Qed.

(** C4.  Whatever handlers are bound: if the handler that a call invokes
    raises an [Exception] [e], then [call_tool] returns; its result is one
    text block reading "Error: " followed by [str(e)]; one line is added to
    the error log; nothing is raised out of [call_tool]; and a call made
    next runs from there, and gives what its own handler returns. *)
Theorem C4_handler_fault_caught (G : Globals) (n : string) (arguments : gmap string value)
    (s s' : log) (e : exn) :
  call_tool_try G n arguments s = (Raise e, s') →
  is_Exception e = true →
  call_tool_in G n arguments s
  = (Return [text_block ("Error: " +:+ exn_str e)],
     s' ++ ["Error in tool '" +:+ n +:+ "': " +:+ exn_str e])
  ∧ dispatch_in G n arguments s = Success [text_block ("Error: " +:+ exn_str e)]
  ∧ String.prefix "Error:" ("Error: " +:+ exn_str e) = true
  ∧ (∀ n2 arguments2 r s2,
       call_tool_try G n2 arguments2 (s' ++ ["Error in tool '" +:+ n +:+ "': " +:+ exn_str e])
       = (Return r, s2) →
       (call_tool_in G n arguments;; call_tool_in G n2 arguments2) s = (Return r, s2)).
Proof.
  intros Hraise Hexc.
  pose proof (call_tool_in_caught G n arguments s s' e Hraise Hexc) as Hc.
  split; [exact Hc |]. split; [unfold dispatch_in; by rewrite Hc |].
  split; [reflexivity |].
  intros n2 arguments2 r s2 Hnext. unfold_M. rewrite Hc.
  unfold call_tool_in. by apply try_except_return.
Qed.

Lemma C4_handler_fault_witness :
  dispatch "get_typo3_coding_guidelines" {[ "topic" := VInt 5 ]} []
  = Success [text_block ("Error: can only concatenate str (not " +:+ chr dquote +:+ "int"
                         +:+ chr dquote +:+ ") to str")]
  ∧ (call_tool "get_typo3_coding_guidelines" {[ "topic" := VInt 5 ]};;
     call_tool "get_typo3_coding_guidelines" {[ "topic" := VStr "fluid" ]}) []
    = (Return [text_block "Guidelines for fluid"],
       ["Error in tool 'get_typo3_coding_guidelines': can only concatenate str (not "
        +:+ chr dquote +:+ "int" +:+ chr dquote +:+ ") to str"]).
Proof.
  pose proof (C4_handler_fault_caught server "get_typo3_coding_guidelines"
                {[ "topic" := VInt 5 ]} [] []
                (TypeError ("can only concatenate str (not " +:+ chr dquote +:+ "int"
                            +:+ chr dquote +:+ ") to str"))
                eq_refl eq_refl) as (_ & Hd & _ & Hnext).
  split; [exact Hd |].
  exact (Hnext "get_typo3_coding_guidelines" {[ "topic" := VStr "fluid" ]} _ _ eq_refl).
Defined.

(** ** Required parameters *)






(** ** Integer parameters *)






(** ** Keys the knowledge bases do not have *)

Lemma api_docs_absent (class_name : string) :
  class_name ≠ "TYPO3\CMS\Core\Database\ConnectionPool" →
  class_name ≠ "TYPO3\CMS\Core\Http\RequestFactory" →
  api_docs !! class_name = None.
Proof.
  intros H1 H2. unfold api_docs. cbn [list_to_map foldr fst snd].
  by rewrite !lookup_insert_ne, lookup_empty by done.
Qed.

Lemma guidelines_absent (topic : string) :
  topic ≠ "php" → topic ≠ "database" → guidelines !! topic = None.
Proof.
  intros H1 H2. unfold guidelines. cbn [list_to_map foldr fst snd].
  by rewrite !lookup_insert_ne, lookup_empty by done.
Qed.

Lemma get_typo3_api_reference_fallback (class_name : string) (method_name : value) (s : log) :
  api_docs !! class_name = None →
  ∃ txt, get_typo3_api_reference (VStr class_name) method_name s
         = (Return [text_block txt], s)
         ∧ contains ("# " +:+ class_name) txt
         ∧ contains ("API documentation for " +:+ class_name) txt.
Proof.
  intros Hnone. unfold get_typo3_api_reference, str_dict_lookup, py_hash_check.
  unfold_M. rewrite Hnone. eexists. split; [reflexivity |]. split.
  - by eexists "", _.
  - do 2 apply contains_app_r. by eexists (String "010" (String "010" "")), _.
Qed.

Lemma get_typo3_coding_guidelines_fallback (topic : string) (s : log) :
  guidelines !! topic = None →
  get_typo3_coding_guidelines (VStr topic) s
  = (Return [text_block ("Guidelines for " +:+ topic)], s).
Proof.
  intros Hnone. unfold get_typo3_coding_guidelines, str_dict_lookup, py_hash_check, str_add.
  unfold_M. by rewrite Hnone.
Qed.


Lemma get_typo3_api_reference_unhashable (l : list value) (method_name : value) (s : log) :
  get_typo3_api_reference (VList l) method_name s
  = (Raise (TypeError "unhashable type: 'list'"), s).
Proof. reflexivity. Qed.

(** C7.  A class name that is a key of neither documented class, and a topic
    other than "php" and "database", are absent from the knowledge bases;
    for an absent class name the handler returns one text block, the generic
    text, which names the class asked for; for an absent topic it returns one
    text block, "Guidelines for " followed by the topic.  In both cases the
    handler raises nothing, nothing is logged, and the call is a success. *)
Theorem C7_absent_key_generic_text :
  (∀ class_name,
     class_name ≠ "TYPO3\CMS\Core\Database\ConnectionPool" →
     class_name ≠ "TYPO3\CMS\Core\Http\RequestFactory" →
     api_docs !! class_name = None)
  ∧ (∀ topic, topic ≠ "php" → topic ≠ "database" → guidelines !! topic = None)
  ∧ (∀ class_name method_name s,
       api_docs !! class_name = None →
       ∃ txt, get_typo3_api_reference (VStr class_name) method_name s
              = (Return [text_block txt], s)
              ∧ contains ("API documentation for " +:+ class_name) txt)
  ∧ (∀ topic s,
       guidelines !! topic = None →
       get_typo3_coding_guidelines (VStr topic) s
       = (Return [text_block ("Guidelines for " +:+ topic)], s))
  ∧ (∀ (arguments : gmap string value) class_name s,
       arguments !! "class_name" = Some (VStr class_name) →
       api_docs !! class_name = None →
       ∃ txt, dispatch "get_typo3_api_reference" arguments s = Success [text_block txt]
              ∧ contains ("API documentation for " +:+ class_name) txt)
  ∧ (∀ (arguments : gmap string value) topic s,
       arguments !! "topic" = Some (VStr topic) →
       guidelines !! topic = None →
       dispatch "get_typo3_coding_guidelines" arguments s
       = Success [text_block ("Guidelines for " +:+ topic)]).
Proof.
  split; [exact api_docs_absent |]. split; [exact guidelines_absent |]. split.
  { intros class_name method_name s Hnone.
    destruct (get_typo3_api_reference_fallback class_name method_name s Hnone)
      as (txt & Hret & _ & Hshow).
    by exists txt. }
  split; [exact get_typo3_coding_guidelines_fallback |]. split.
  - intros arguments class_name s Hkey Hnone.
    destruct (get_typo3_api_reference_fallback class_name
                (dict_get arguments "method_name" VNone) s Hnone)
      as (txt & Hret & _ & Hshow).
    exists txt. split; [| exact Hshow].
    unfold dispatch, dispatch_in, call_tool_in, call_tool_try, try_except.
    cbn [String.eqb Ascii.eqb Bool.eqb server g_get_typo3_api_reference].
    by rewrite (dict_get_present _ _ _ _ Hkey), Hret.
  - intros arguments topic s Hkey Hnone.
    unfold dispatch, dispatch_in, call_tool_in, call_tool_try, try_except.
    cbn [String.eqb Ascii.eqb Bool.eqb server g_get_typo3_coding_guidelines].
    by rewrite (dict_get_present _ _ _ _ Hkey),
         (get_typo3_coding_guidelines_fallback topic s Hnone).
Qed.

Lemma C7_absent_key_witness :
  dispatch "get_typo3_coding_guidelines" {[ "topic" := VStr "security" ]} []
  = Success [text_block "Guidelines for security"]
  ∧ ∃ txt, dispatch "get_typo3_api_reference"
             {[ "class_name" := VStr "TYPO3\CMS\Core\Cache\CacheManager" ]} []
           = Success [text_block txt]
           ∧ contains "API documentation for TYPO3\CMS\Core\Cache\CacheManager" txt.
Proof.
  destruct C7_absent_key_generic_text as (Hapi & Hcgl & _ & _ & Hdapi & Hdcgl).
  split.
  - apply (Hdcgl _ "security"); [reflexivity | apply Hcgl; discriminate].
  - apply (Hdapi _ "TYPO3\CMS\Core\Cache\CacheManager");
      [reflexivity | apply Hapi; discriminate].
Defined.

(** * Further properties of the handlers and of [call_tool] *)

(** ** The stored texts *)


Lemma api_docs_entries :
  map_Forall (λ class_name doc,
                String.prefix "Error: " doc = false
                ∧ contains ("**Namespace:** " +:+ class_name) doc
                ∧ contains "## Methods" doc)
             api_docs.
Proof.
  unfold api_docs. cbn [list_to_map foldr fst snd].
  repeat apply map_Forall_insert_2; try apply map_Forall_empty;
    (split; [reflexivity |]; split; apply containsb_sound; vm_compute; reflexivity).
Qed.

Lemma guidelines_entries :
  map_Forall (λ topic doc,
                String.prefix "Error: " doc = false
                ∧ String.prefix "Guidelines for " doc = false)
             guidelines.
Proof.
  unfold guidelines. cbn [list_to_map foldr fst snd].
  repeat apply map_Forall_insert_2; try apply map_Forall_empty; by split.
Qed.

(** ** The two shapes of an answer *)

(** Every call either returns the text of a handler or of the unknown-tool
    branch, which does not start with "Error: ", and leaves the log alone;
    or it returns "Error: " followed by a message, and appends one line with
    the tool name and the same message to the log.  Which of the two, and
    the text, do not depend on the log. *)
Lemma call_tool_shape (name : string) (arguments : gmap string value) :
  (∃ txt, String.prefix "Error: " txt = false
          ∧ ∀ s, call_tool name arguments s = (Return [text_block txt], s))
  ∨ (∃ msg, ∀ s, call_tool name arguments s
                 = (Return [text_block ("Error: " +:+ msg)],
                    s ++ ["Error in tool '" +:+ name +:+ "': " +:+ msg])).
Proof.
  unfold call_tool, call_tool_in, call_tool_try, try_except.
  repeat match goal with
         | |- context [String.eqb name ?x] => destruct (String.eqb_spec name x) as [-> | _]
         end;
    cbn [server g_search_typo3_docs g_get_typo3_changelog g_search_typo3_extensions
         g_get_typo3_api_reference g_get_typo3_coding_guidelines];
    try (left; eexists; split; [| intros s; reflexivity]; reflexivity).
  - unfold get_typo3_api_reference, str_dict_lookup, py_hash_check. unfold_M.
    destruct (dict_get arguments "class_name" VNone) as [| | | |k| |];
      try (left; eexists; split; [| intros s; reflexivity]; reflexivity);
      try (right; eexists; intros s; reflexivity).
    destruct (api_docs !! k) as [doc|] eqn:Hk.
    + left. exists doc. split; [| by intros s].
      by destruct (api_docs_entries k doc Hk).
    + left. eexists; split; [| intros s; reflexivity]; reflexivity.
  - unfold get_typo3_coding_guidelines, str_dict_lookup, py_hash_check, str_add. unfold_M.
    destruct (dict_get arguments "topic" (VStr "php")) as [| | | |k| |];
      try (right; eexists; intros s; reflexivity).
    destruct (guidelines !! k) as [doc|] eqn:Hk.
    + left. exists doc. split; [| by intros s].
      by destruct (guidelines_entries k doc Hk).
    + left. eexists; split; [| intros s; reflexivity]; reflexivity.
Qed.

Lemma prefix_app_self (p post : string) : String.prefix p (p +:+ post) = true.
Proof.
  induction p as [|c p IH]; [by destruct post |].
  change (String.prefix (String c p) (String c (p +:+ post)) = true).
  cbn [String.prefix]. by destruct (ascii_dec c c).
Qed.


Lemma app_singleton_neq {A} (l : list A) (x : A) : l ++ [x] ≠ l.
Proof. intros H. apply (f_equal length) in H. rewrite length_app in H. simpl in H. lia. Qed.

(** X1.  An answer of [call_tool] starts with "Error: " exactly when an
    exception was caught, and then the log has grown by one line that names
    the tool and repeats the message of the answer; every other answer (a
    handler's text, or the unknown-tool text) leaves the log as it was. *)
Theorem X1_error_answer_iff_logged (name : string) (arguments : gmap string value) (s : log) :
  ∃ block s',
    call_tool name arguments s = (Return [block], s')
    ∧ (String.prefix "Error: " (text block) = true ↔ s' ≠ s)
    ∧ ((String.prefix "Error: " (text block) = false ∧ s' = s)
       ∨ (∃ msg, text block = "Error: " +:+ msg
                 ∧ s' = s ++ ["Error in tool '" +:+ name +:+ "': " +:+ msg])).
Proof.
  destruct (call_tool_shape name arguments) as [(txt & Hpre & Hcall) | (msg & Hcall)].
  - exists (text_block txt), s. split; [apply Hcall |]. split; [| by left].
    cbn [text text_block]. rewrite Hpre. split; [discriminate | done].
  - eexists (text_block _), _. split; [apply Hcall |]. split.
    + split; [intros _; apply app_singleton_neq | intros _; apply prefix_app_self].
    + right. by exists msg.
Qed.

(** X2.  A call does not depend on what was logged before: its answer is the
    one it gives on an empty log, and the log afterwards is the old log
    followed by the lines the call writes on an empty log.  So of two calls
    made one after the other, the second answers as if it were alone. *)
Theorem X2_calls_independent_of_log :
  (∀ name arguments s,
     call_tool name arguments s
     = ((call_tool name arguments []).1, s ++ (call_tool name arguments []).2))
  ∧ (∀ name1 arguments1 name2 arguments2 s,
       (call_tool name1 arguments1;; call_tool name2 arguments2) s
       = ((call_tool name2 arguments2 []).1,
          s ++ (call_tool name1 arguments1 []).2 ++ (call_tool name2 arguments2 []).2)).
Proof.
  assert (∀ name arguments s,
            call_tool name arguments s
            = ((call_tool name arguments []).1, s ++ (call_tool name arguments []).2)
            ∧ ∃ r, (call_tool name arguments []).1 = Return r) as Hone.
  { intros name arguments s.
    destruct (call_tool_shape name arguments) as [(txt & _ & Hcall) | (msg & Hcall)];
      rewrite (Hcall s), (Hcall []); cbn [fst snd]; rewrite ?app_nil_r; eauto. }
  split; [intros; apply Hone |].
  intros name1 arguments1 name2 arguments2 s. unfold_M.
  destruct (Hone name1 arguments1 s) as [H1 [r Hr]]. rewrite H1, Hr.
  destruct (Hone name2 arguments2 (s ++ (call_tool name1 arguments1 []).2)) as [H2 _].
  by rewrite H2, app_assoc.
Qed.

(** X3.  get_typo3_api_reference never looks at method_name: two calls that
    agree on class_name give the same answer and write the same log,
    whatever else the arguments hold. *)
Theorem X3_method_name_has_no_effect (arguments1 arguments2 : gmap string value) (s : log) :
  arguments1 !! "class_name" = arguments2 !! "class_name" →
  call_tool "get_typo3_api_reference" arguments1 s
  = call_tool "get_typo3_api_reference" arguments2 s.
Proof.
  intros Hsame.
  unfold call_tool, call_tool_in, call_tool_try, try_except, dict_get.
  cbn [String.eqb Ascii.eqb Bool.eqb server g_get_typo3_api_reference].
  by rewrite Hsame.
Qed.

Lemma X3_method_name_witness :
  call_tool "get_typo3_api_reference"
    (<["method_name" := VStr "getQueryBuilderForTable"]>
       {[ "class_name" := VStr "TYPO3\CMS\Core\Database\ConnectionPool" ]}) []
  = call_tool "get_typo3_api_reference"
      {[ "class_name" := VStr "TYPO3\CMS\Core\Database\ConnectionPool" ]} [].
Proof.
  apply (X3_method_name_has_no_effect
           (<["method_name" := VStr "getQueryBuilderForTable"]>
              {[ "class_name" := VStr "TYPO3\CMS\Core\Database\ConnectionPool" ]})
           {[ "class_name" := VStr "TYPO3\CMS\Core\Database\ConnectionPool" ]} []).
  reflexivity.
Defined.

(** X4.  A topic that is present but is not a string (a null, a number, a
    boolean, a list, an object) makes get_typo3_coding_guidelines fail while
    it builds its fallback text; [call_tool] answers with the message of the
    [TypeError], which names the type of the value, and logs it. *)
Theorem X4_topic_not_a_string (arguments : gmap string value) (v : value) (s : log) :
  arguments !! "topic" = Some v →
  type_name v ≠ "str" →
  call_tool "get_typo3_coding_guidelines" arguments s
  = (Return [text_block ("Error: can only concatenate str (not " +:+ chr dquote
                         +:+ type_name v +:+ chr dquote +:+ ") to str")],
     s ++ ["Error in tool 'get_typo3_coding_guidelines': can only concatenate str (not "
           +:+ chr dquote +:+ type_name v +:+ chr dquote +:+ ") to str"]).
Proof.
  intros Hv Hty.
  unfold call_tool, call_tool_in, call_tool_try, try_except.
  cbn [String.eqb Ascii.eqb Bool.eqb server g_get_typo3_coding_guidelines].
  rewrite (dict_get_present _ _ _ _ Hv).
  by destruct v.
Qed.

Lemma X4_topic_null_witness :
  call_tool "get_typo3_coding_guidelines" {[ "topic" := VNone ]} []
  = (Return [text_block ("Error: can only concatenate str (not " +:+ chr dquote
                         +:+ "NoneType" +:+ chr dquote +:+ ") to str")],
     ["Error in tool 'get_typo3_coding_guidelines': can only concatenate str (not "
      +:+ chr dquote +:+ "NoneType" +:+ chr dquote +:+ ") to str"]).
Proof.
  apply (X4_topic_not_a_string {[ "topic" := VNone ]} VNone []); [reflexivity | discriminate].
Defined.


(** ** What the texts show, and what they do not depend on *)




(** ** Keys the knowledge bases have, and topics they lack *)

(** X9.  For a topic given as a string the answer is the one-line fallback
    "Guidelines for <topic>" exactly when the topic has no stored text;
    otherwise it is the stored text.  Of the eight topics the schema
    advertises, six have no stored text: only php and database do. *)
Theorem X9_advertised_topics_without_text :
  (∀ (arguments : gmap string value) topic s,
     arguments !! "topic" = Some (VStr topic) →
     ∃ txt, call_tool "get_typo3_coding_guidelines" arguments s = (Return [text_block txt], s)
            ∧ (guidelines !! topic = None → txt = "Guidelines for " +:+ topic)
            ∧ (∀ doc, guidelines !! topic = Some doc →
                      txt = doc ∧ txt ≠ "Guidelines for " +:+ topic))
  ∧ filter (λ topic, guidelines !! topic = None)
           (allowed_values "get_typo3_coding_guidelines" "topic")
    = ["javascript"; "typescript"; "fluid"; "typoscript"; "security"; "all"].
Proof.
  split; [| by vm_compute].
  intros arguments topic s Htopic.
  unfold call_tool, call_tool_in, call_tool_try, try_except.
  cbn [String.eqb Ascii.eqb Bool.eqb server g_get_typo3_coding_guidelines].
  rewrite (dict_get_present _ _ _ _ Htopic).
  unfold get_typo3_coding_guidelines, str_dict_lookup, py_hash_check, str_add. unfold_M.
  eexists. split; [reflexivity |]. split.
  - by intros ->.
  - intros doc Hdoc. rewrite Hdoc. split; [done |].
    destruct (guidelines_entries topic doc Hdoc) as [_ Hpre].
    intros Heq. change (doc = "Guidelines for " +:+ topic) in Heq. subst doc.
    by rewrite prefix_app_self in Hpre.
Qed.

Lemma X9_topic_witness :
  ∃ txt, call_tool "get_typo3_coding_guidelines" {[ "topic" := VStr "fluid" ]} []
         = (Return [text_block txt], [])
         ∧ txt = "Guidelines for fluid".
Proof.
  assert (({[ "topic" := VStr "fluid" ]} : gmap string value) !! "topic"
          = Some (VStr "fluid")) as Hkey by reflexivity.
  destruct (proj1 X9_advertised_topics_without_text
              {[ "topic" := VStr "fluid" ]} "fluid" [] Hkey) as (txt & Hcall & Hnone & _).
  exists txt. split; [exact Hcall |]. apply Hnone. reflexivity.
Defined.

(** X12.  A class name that is a key of the API texts gets exactly the stored
    text, which names that class as its namespace and has a section on its
    methods; nothing is logged.  The match is on the exact string. *)
Theorem X12_documented_class (arguments : gmap string value) (class_name doc : string)
    (s : log) :
  arguments !! "class_name" = Some (VStr class_name) →
  api_docs !! class_name = Some doc →
  call_tool "get_typo3_api_reference" arguments s = (Return [text_block doc], s)
  ∧ contains ("**Namespace:** " +:+ class_name) doc
  ∧ contains "## Methods" doc.
Proof.
  intros Hkey Hdoc. split.
  - unfold call_tool, call_tool_in, call_tool_try, try_except.
    cbn [String.eqb Ascii.eqb Bool.eqb server g_get_typo3_api_reference].
    rewrite (dict_get_present _ _ _ _ Hkey).
    unfold get_typo3_api_reference, str_dict_lookup, py_hash_check. unfold_M.
    by rewrite Hdoc.
  - by destruct (api_docs_entries class_name doc Hdoc) as (_ & ? & ?).
Qed.

Lemma X12_documented_class_witness :
  ∃ doc, call_tool "get_typo3_api_reference"
           {[ "class_name" := VStr "TYPO3\CMS\Core\Http\RequestFactory" ]} []
         = (Return [text_block doc], [])
         ∧ contains ("**Namespace:** " +:+ "TYPO3\CMS\Core\Http\RequestFactory") doc.
Proof.
  destruct (api_docs !! "TYPO3\CMS\Core\Http\RequestFactory") as [doc|] eqn:Hdoc;
    [| by vm_compute in Hdoc].
  exists doc.
  assert (({[ "class_name" := VStr "TYPO3\CMS\Core\Http\RequestFactory" ]}
           : gmap string value) !! "class_name"
          = Some (VStr "TYPO3\CMS\Core\Http\RequestFactory")) as Hkey by reflexivity.
  destruct (X12_documented_class
              {[ "class_name" := VStr "TYPO3\CMS\Core\Http\RequestFactory" ]}
              "TYPO3\CMS\Core\Http\RequestFactory" doc [] Hkey Hdoc) as (Hcall & Hns & _).
  by split.
Defined.

(** ** The declared schemas *)

(** X11.  The schemas that [list_tools] declares are consistent: within a
    tool the parameter names are distinct and every required name is
    declared; every parameter is a string, an enumeration of strings or a
    bounded integer; a required parameter has no default; a declared
    default is valid for its own parameter (one of the allowed values,
    within the bounds); no enumeration is empty and no bounds are inverted.
    So the values [call_tool] fills in for absent keys fit the schema. *)
Theorem X11_schemas_consistent (t : Tool) :
  t ∈ catalog →
  NoDup (declared t)
  ∧ (∀ p, p ∈ required (inputSchema t) → p ∈ declared t)
  ∧ (∀ p ps,
       (p, ps) ∈ properties (inputSchema t) →
       is_Some (kind_of ps)
       ∧ (p ∈ required (inputSchema t) → prop_default ps = None)
       ∧ (∀ d, prop_default ps = Some d → valid_default ps d)
       ∧ (∀ allowed, prop_enum ps = Some allowed → allowed ≠ [])
       ∧ (∀ lo hi, prop_minimum ps = Some lo → prop_maximum ps = Some hi → (lo ≤ hi)%Z)).
Proof.
  intros Ht. each_tool Ht.
  all: split; [compute_done |].
  all: split; [intros p Hp; cbn in Hp; each_member Hp; compute_done |].
  all: intros p ps Hp; cbn in Hp; each_member Hp.
  all: split; [by eexists |].
  all: split; [intros Hreq; first [reflexivity | exfalso; revert Hreq; compute_done] |].
  all: split; [intros d Hd; cbn in Hd; try discriminate Hd; injection Hd as <-;
               unfold valid_default; cbn;
               first [exact I | lia | compute_done] |].
  all: split; [intros allowed Ha; cbn in Ha; try discriminate Ha; by injection Ha as <- |].
  all: intros lo hi Hlo Hhi; cbn in Hlo, Hhi; try discriminate Hlo;
    injection Hlo as <-; injection Hhi as <-; lia.
Qed.

Lemma X11_schemas_witness :
  valid_default
    {| prop_type := "integer"; prop_description := "Maximum number of results";
       prop_enum := None; prop_default := Some (VInt 10);
       prop_minimum := Some 1%Z; prop_maximum := Some 50%Z |}
    (VInt 10).
Proof.
  pose proof (list_elem_of_lookup_2 catalog 2 _ eq_refl) as Ht.
  match type of Ht with
  | ?t ∈ _ =>
      pose proof (list_elem_of_lookup_2 (properties (inputSchema t)) 2 _ eq_refl) as Hp;
      exact (proj1 (proj2 (proj2 (proj2 (proj2 (X11_schemas_consistent t Ht)) _ _ Hp)))
               (VInt 10) eq_refl)
  end.
Defined.

(** ** Null is not absence *)



